(** * Monitor_usart: frame decoder, ADC window and report scheduler

    Shallow embedding of [src/miku666/C/Monitor_usart.c].  The UART
    receive callback ([HAL_UART_RxCpltCallback]) and [Update_Temperature]
    are modelled as pure transitions on a decoder state and on the
    monitor's global state; [Monitor_Task] is one poll of the main loop,
    taking the tick read by [HAL_GetTick], the debounced button event and
    the outcome of the ADC conversion as inputs.  All [uint32_t] ticks
    are [Z] values in [0, 2^32) with the wrap-around written out. *)

From Stdlib Require Import ZArith Lia.
From stdpp Require Import base list sorting.

Local Open Scope Z_scope.

(* ================================================================= *)
(** ** Machine integers *)

Definition two32 : Z := 2 ^ 32.

(** [uint32_t] arithmetic wraps modulo 2^32. *)
Definition u32 (x : Z) : Z := x mod two32.

(** Conversion [(int32_t)x] of a [uint32_t] value (two's complement). *)
Definition to_int32 (x : Z) : Z :=
  if x <? 2 ^ 31 then x else x - two32.

(* ================================================================= *)
(** ** Protocol decoder ([HAL_UART_RxCpltCallback]) *)

Inductive ProtocolState_t :=
  | STATE_WAIT_FC
  | STATE_CHECK_LEN
  | STATE_CHECK_ZERO
  | STATE_CHECK_STATUS
  | STATE_READ_DATA.

(** The static variables [p_state], [data_buf[6]] and [data_idx]
    ([uint8_t]). *)
Record Decoder := mkDecoder {
  p_state : ProtocolState_t;
  data_buf : list Z;
  data_idx : Z
}.

Definition DATA_BUF_LEN : Z := 6.

Definition init_decoder : Decoder :=
  mkDecoder STATE_WAIT_FC (repeat 0 6) 0.

Definition set_state (d : Decoder) (s : ProtocolState_t) : Decoder :=
  mkDecoder s (data_buf d) (data_idx d).

(** [data_buf[i] = b]: [None] when [i] lies outside the 6-byte array
    (an out-of-bounds store, undefined behaviour in C). *)
Definition buf_write (buf : list Z) (i b : Z) : option (list Z) :=
  if (0 <=? i) && (i <? DATA_BUF_LEN) then Some (<[Z.to_nat i := b]> buf)
  else None.

(** An emitted sample is the pair [(lsb, msb)] passed to
    [Update_Temperature(data_buf[0], data_buf[1])]. *)
Definition Sample : Type := (Z * Z)%type.

(** One call of the receive callback on byte [rx_byte], decoder part.
    The [default] branch of the C switch is unreachable for the enum and
    has no counterpart. *)
Definition dec_step (d : Decoder) (rx_byte : Z) : option (Decoder * option Sample) :=
  match p_state d with
  | STATE_WAIT_FC =>
      Some (if rx_byte =? 0xFC then set_state d STATE_CHECK_LEN else d, None)
  | STATE_CHECK_LEN =>
      Some (if rx_byte =? 0x0A then set_state d STATE_CHECK_ZERO
            else if rx_byte =? 0x05 then set_state d STATE_WAIT_FC
            else set_state d STATE_WAIT_FC, None)
  | STATE_CHECK_ZERO =>
      Some (if rx_byte =? 0x00 then set_state d STATE_CHECK_STATUS
            else set_state d STATE_WAIT_FC, None)
  | STATE_CHECK_STATUS =>
      Some (if rx_byte =? 0x01 then mkDecoder STATE_READ_DATA (data_buf d) 0
            else set_state d STATE_WAIT_FC, None)
  | STATE_READ_DATA =>
      match buf_write (data_buf d) (data_idx d) rx_byte with
      | None => None
      | Some buf =>
          let idx := (data_idx d + 1) mod 256 in
          if idx >=? 6 then
            Some (mkDecoder STATE_WAIT_FC buf idx,
                  Some (nth 0 buf 0, nth 1 buf 0))
          else Some (mkDecoder STATE_READ_DATA buf idx, None)
      end
  end.

(** Feeding a byte sequence, one callback per byte; the emitted samples
    are collected in order.  [None] if some call stores out of bounds. *)
Fixpoint dec_run (d : Decoder) (bs : list Z) : option (Decoder * list Sample) :=
  match bs with
  | [] => Some (d, [])
  | b :: bs' =>
      match dec_step d b with
      | None => None
      | Some (d', ev) =>
          match dec_run d' bs' with
          | None => None
          | Some (d'', evs) => Some (d'', option_list ev ++ evs)
          end
      end
  end.

(** A frame as the decoder accepts it: [FC 0A 00 01] then six data bytes. *)
Definition frame_header : list Z := [0xFC; 0x0A; 0x00; 0x01].

Definition frame (data : list Z) : list Z := frame_header ++ data.

(** [raw = (uint16_t)lsb | ((uint16_t)msb << 8)]. *)
Definition raw_of (lsb msb : Z) : Z := Z.lor lsb (Z.shiftl msb 8).

Definition is_byte (b : Z) : Prop := 0 <= b < 256.

(* ================================================================= *)
(** ** Monitor state (the static globals of Monitor_usart.c) *)

Definition PRINT_INTERVAL_MS : Z := 250.
Definition ADC_SAMPLE_MS : Z := 50.
Definition LED_TOGGLE_MS : Z := 15000.
Definition MAX_ADC_SAMPLES : Z := 10.

(** [g_latest_valid_temp] is a [float] equal to [raw / 10.0f]; it is kept
    here as the raw [uint16_t] value it was computed from ([raw / 10.0f]
    is injective on [uint16_t], so nothing is lost).  [adc_count] is a
    [uint8_t], [adc_values] the [uint32_t adc_values[10]] array. *)
Record Monitor := mkMonitor {
  g_latest_valid_temp : Z;
  g_has_valid_data : bool;
  adc_values : list Z;
  adc_count : Z;
  next_adc_tick : Z;
  is_running : bool;
  time_synced : bool;
  time_base_tick : Z;
  next_print_tick : Z;
  next_led_tick : Z
}.

Definition init_monitor : Monitor := {|
  g_latest_valid_temp := 0; g_has_valid_data := false;
  adc_values := repeat 0 10; adc_count := 0; next_adc_tick := 0;
  is_running := true; time_synced := false; time_base_tick := 0;
  next_print_tick := 0; next_led_tick := 0 |}.

Definition set_temp (m : Monitor) (v : Z) (has : bool) : Monitor := {|
  g_latest_valid_temp := v; g_has_valid_data := has;
  adc_values := adc_values m; adc_count := adc_count m;
  next_adc_tick := next_adc_tick m; is_running := is_running m;
  time_synced := time_synced m; time_base_tick := time_base_tick m;
  next_print_tick := next_print_tick m; next_led_tick := next_led_tick m |}.

Definition set_sync (m : Monitor) (synced : bool) (tb np na : Z) : Monitor := {|
  g_latest_valid_temp := g_latest_valid_temp m;
  g_has_valid_data := g_has_valid_data m;
  adc_values := adc_values m; adc_count := adc_count m;
  next_adc_tick := na; is_running := is_running m;
  time_synced := synced; time_base_tick := tb;
  next_print_tick := np; next_led_tick := next_led_tick m |}.

Definition set_window (m : Monitor) (vals : list Z) (cnt : Z) : Monitor := {|
  g_latest_valid_temp := g_latest_valid_temp m;
  g_has_valid_data := g_has_valid_data m;
  adc_values := vals; adc_count := cnt;
  next_adc_tick := next_adc_tick m; is_running := is_running m;
  time_synced := time_synced m; time_base_tick := time_base_tick m;
  next_print_tick := next_print_tick m; next_led_tick := next_led_tick m |}.

Definition set_run (m : Monitor) (running synced : bool) : Monitor := {|
  g_latest_valid_temp := g_latest_valid_temp m;
  g_has_valid_data := g_has_valid_data m;
  adc_values := adc_values m; adc_count := adc_count m;
  next_adc_tick := next_adc_tick m; is_running := running;
  time_synced := synced; time_base_tick := time_base_tick m;
  next_print_tick := next_print_tick m; next_led_tick := next_led_tick m |}.

Definition set_deadlines (m : Monitor) (na np nl : Z) : Monitor := {|
  g_latest_valid_temp := g_latest_valid_temp m;
  g_has_valid_data := g_has_valid_data m;
  adc_values := adc_values m; adc_count := adc_count m;
  next_adc_tick := na; is_running := is_running m;
  time_synced := time_synced m; time_base_tick := time_base_tick m;
  next_print_tick := np; next_led_tick := nl |}.

(** [Monitor_Init]: only [next_led_tick] is set (the UART arming and the
    banner are I/O). *)
Definition Monitor_Init (now : Z) : Monitor :=
  set_deadlines init_monitor 0 0 (u32 (now + LED_TOGGLE_MS)).

(* ================================================================= *)
(** ** [Update_Temperature] *)

(** The range test [val >= 0.0f && val <= 100.0f] on [val = raw / 10.0f]:
    the binary32 quotient is correctly rounded and rounding is monotone,
    [1000 / 10.0f] is exactly [100.0f], and for [raw >= 1001] the exact
    quotient is at least [100.1], more than one binary32 ulp (2^-17)
    above [100]; so the test holds exactly when [0 <= raw <= 1000]. *)
Definition temp_in_range (raw : Z) : bool := (0 <=? raw) && (raw <=? 1000).

(** [now] is the value [HAL_GetTick()] returns inside the call. *)
Definition Update_Temperature (m : Monitor) (lsb msb now : Z) : Monitor :=
  let raw := raw_of lsb msb in
  if temp_in_range raw then
    let m1 := set_temp m raw true in
    if is_running m1 && negb (time_synced m1) then
      set_sync m1 true (u32 (now + PRINT_INTERVAL_MS))
               (u32 (now + PRINT_INTERVAL_MS)) now
    else m1
  else m.

(** The whole receive callback: decoder step, then [Update_Temperature]
    on an emitted sample.  [None] on an out-of-bounds store. *)
Definition HAL_UART_RxCpltCallback (m : Monitor) (d : Decoder) (rx_byte now : Z)
  : option (Monitor * Decoder) :=
  match dec_step d rx_byte with
  | None => None
  | Some (d', ev) =>
      Some (match ev with
            | Some (lsb, msb) => Update_Temperature m lsb msb now
            | None => m
            end, d')
  end.

(* ================================================================= *)
(** ** [Get_Median_ADC]: bubble sort of a copy, then [sorted[n/2]] *)

(** The inner loop [for (j = 0; j < m; j++)] compare-and-swap of
    [sorted[j]] and [sorted[j+1]]: after a swap the larger value sits at
    [j+1] and is the left operand of the next comparison. *)
Fixpoint bubble_pass (m : nat) (l : list Z) : list Z :=
  match m, l with
  | S m', x :: y :: r =>
      if x >? y then y :: bubble_pass m' (x :: r)
      else x :: bubble_pass m' (y :: r)
  | _, _ => l
  end.

(** The outer loop [for (i = 0; i < n-1; i++)] runs the inner loop with
    bound [n-i-1], i.e. [n-1], [n-2], ..., [1]. *)
Fixpoint bubble_rounds (k : nat) (l : list Z) : list Z :=
  match k with
  | O => l
  | S k' => bubble_rounds k' (bubble_pass (S k') l)
  end.

Definition bubble_sort (n : nat) (l : list Z) : list Z := bubble_rounds (n - 1) l.

Definition Get_Median_ADC (m : Monitor) : Z :=
  if adc_count m =? 0 then 0
  else
    let n := Z.to_nat (adc_count m) in
    let sorted := take n (adc_values m) in
    nth (n / 2) (bubble_sort n sorted) 0.

(* ================================================================= *)
(** ** [Monitor_Task] *)

(** One emitted report line [[%.2fs] T:%.1f C, ADC:%lu]: the elapsed time
    in milliseconds ([(int32_t)(now - time_base_tick)], printed divided by
    1000), the temperature register (raw, printed divided by 10) and the
    ADC median. *)
Record Report := mkReport {
  elapsed_ms : Z;
  temp_raw : Z;
  median_adc : Z
}.

(** Storing one ADC reading: [if (adc_count < MAX_ADC_SAMPLES)
    adc_values[adc_count++] = val;]. *)
Definition adc_store (m : Monitor) (val : Z) : Monitor :=
  if adc_count m <? MAX_ADC_SAMPLES then
    set_window m (<[Z.to_nat (adc_count m) := val]> (adc_values m))
               ((adc_count m + 1) mod 256)
  else m.

(** [deadline += period; if (deadline < now) deadline = now + period;]
    in [uint32_t]. *)
Definition advance_deadline (deadline period now : Z) : Z :=
  let t := u32 (deadline + period) in
  if t <? now then u32 (now + period) else t.

(** The button block: [btn] is a confirmed press (read low twice, 20 ms
    apart, then released). *)
Definition button_step (m : Monitor) (btn : bool) : Monitor :=
  if btn then
    let r := negb (is_running m) in
    if r then set_window (set_run m r false) (adc_values m) 0
    else set_run m r (time_synced m)
  else m.

(** One call of [Monitor_Task]: [now] is [HAL_GetTick()] at entry, [btn]
    the button event, [adc] the conversion result ([None] when
    [HAL_ADC_PollForConversion] does not return [HAL_OK]). *)
Definition Monitor_Task (m : Monitor) (now : Z) (btn : bool) (adc : option Z)
  : Monitor * option Report :=
  let m1 := button_step m btn in
  let m2 := if now >=? next_led_tick m1
            then set_deadlines m1 (next_adc_tick m1) (next_print_tick m1)
                               (u32 (now + LED_TOGGLE_MS))
            else m1 in
  if is_running m2 && time_synced m2 then
    let m3 :=
      if now >=? next_adc_tick m2 then
        let m' := match adc with Some v => adc_store m2 v | None => m2 end in
        set_deadlines m' (advance_deadline (next_adc_tick m') ADC_SAMPLE_MS now)
                      (next_print_tick m') (next_led_tick m')
      else m2 in
    if now >=? next_print_tick m3 then
      let current_temp := g_latest_valid_temp m3 in
      let has_data := g_has_valid_data m3 in
      let '(m4, rep) :=
        if has_data then
          (set_window m3 (adc_values m3) 0,
           Some (mkReport (to_int32 (u32 (now - time_base_tick m3)))
                          current_temp (Get_Median_ADC m3)))
        else (m3, None) in
      (set_deadlines m4 (next_adc_tick m4)
                     (advance_deadline (next_print_tick m4) PRINT_INTERVAL_MS now)
                     (next_led_tick m4), rep)
    else (m3, None)
  else (m2, None).

(* ================================================================= *)
(** ** Whole-system runs *)

(** What happens to the system: a byte received at tick [now], or one
    poll of [Monitor_Task]. *)
Inductive SysEvent :=
  | RxByte (b now : Z)
  | Poll (now : Z) (btn : bool) (adc : option Z).

(** Runs a sequence of events; reports are tagged with the poll tick. *)
Fixpoint sys_run (m : Monitor) (d : Decoder) (evs : list SysEvent)
  : option (Monitor * Decoder * list (Z * Report)) :=
  match evs with
  | [] => Some (m, d, [])
  | RxByte b now :: evs' =>
      match HAL_UART_RxCpltCallback m d b now with
      | None => None
      | Some (m', d') => sys_run m' d' evs'
      end
  | Poll now btn adc :: evs' =>
      let '(m', rep) := Monitor_Task m now btn adc in
      match sys_run m' d evs' with
      | None => None
      | Some (m'', d'', reps) =>
          Some (m'', d'', match rep with Some r => (now, r) :: reps | None => reps end)
      end
  end.

Definition rx_bytes (bs : list Z) (now : Z) : list SysEvent :=
  map (fun b => RxByte b now) bs.

(** [n] polls of [Monitor_Task], one per tick from [start], each with a
    successful conversion returning [adc]. *)
Definition poll_every_ms (start : Z) (n : nat) (adc : Z) : list SysEvent :=
  map (fun k => Poll (start + Z.of_nat k) false (Some adc)) (seq 0 n).

(** The reported elapsed times of a run. *)
Definition reported_elapsed (o : option (Monitor * Decoder * list (Z * Report))) : list Z :=
  match o with
  | Some (_, _, reps) => map (fun r => elapsed_ms r.2) reps
  | None => []
  end.

(** Well-formedness of the decoder: the 6-byte array, and the index
    bound while reading data. *)
Definition dec_wf (d : Decoder) : Prop := length (data_buf d) = 6%nat.

Definition dec_inv (d : Decoder) : Prop :=
  dec_wf d /\ (p_state d = STATE_READ_DATA -> 0 <= data_idx d <= 5).

(** Well-formedness of the ADC window. *)
Definition win_inv (m : Monitor) : Prop :=
  0 <= adc_count m <= MAX_ADC_SAMPLES /\ length (adc_values m) = 10%nat.

(** What the decoder state says about the bytes consumed so far: the
    tail of [consumed] is the part of a frame the state has matched. *)
Definition frame_inv (d : Decoder) (consumed : list Z) : Prop :=
  dec_wf d /\
  match p_state d with
  | STATE_WAIT_FC => True
  | STATE_CHECK_LEN => exists pre, consumed = pre ++ [0xFC]
  | STATE_CHECK_ZERO => exists pre, consumed = pre ++ [0xFC; 0x0A]
  | STATE_CHECK_STATUS => exists pre, consumed = pre ++ [0xFC; 0x0A; 0x00]
  | STATE_READ_DATA =>
      0 <= data_idx d <= 5 /\
      exists pre, consumed = pre ++ frame_header ++ take (Z.to_nat (data_idx d)) (data_buf d)
  end.

(** The temperature register only holds accepted raw values. *)
Definition reg_inv (m : Monitor) : Prop := 0 <= g_latest_valid_temp m <= 1000.

(** The scheduler part of the state (mode, time base, sample and report
    deadlines, ADC window) is the same in [m] and [m']. *)
Definition sched_frozen (m m' : Monitor) : Prop :=
  is_running m' = is_running m /\ time_synced m' = time_synced m
  /\ time_base_tick m' = time_base_tick m
  /\ next_print_tick m' = next_print_tick m /\ next_adc_tick m' = next_adc_tick m
  /\ adc_values m' = adc_values m /\ adc_count m' = adc_count m.

(** No poll of the sequence sees a button press. *)
Definition no_button (evs : list SysEvent) : Prop :=
  Forall (fun e => match e with Poll _ true _ => False | _ => True end) evs.

(* ================================================================= *)
(** * Decoder properties *)

Lemma dec_run_app (d : Decoder) (l1 l2 : list Z) :
  dec_run d (l1 ++ l2) =
    match dec_run d l1 with
    | None => None
    | Some (d1, e1) =>
        match dec_run d1 l2 with
        | None => None
        | Some (d2, e2) => Some (d2, e1 ++ e2)
        end
    end.
Proof.
  revert d. induction l1 as [|b l1 IH]; intros d; simpl.
  - destruct (dec_run d l2) as [[d2 e2]|]; reflexivity.
  - destruct (dec_step d b) as [[d' ev]|]; [|reflexivity].
    rewrite IH.
    destruct (dec_run d' l1) as [[d1 e1]|]; [|reflexivity].
    destruct (dec_run d1 l2) as [[d2 e2]|]; [|reflexivity].
    by rewrite app_assoc.
Qed.

(** A frame, fed from the header-search state, emits its two first data
    bytes and comes back to the header search with a 6-byte buffer. *)
Lemma frame_run (d : Decoder) (b0 b1 b2 b3 b4 b5 : Z) :
  p_state d = STATE_WAIT_FC -> dec_wf d ->
  exists d', dec_run d (frame [b0; b1; b2; b3; b4; b5]) = Some (d', [(b0, b1)])
             /\ p_state d' = STATE_WAIT_FC /\ dec_wf d'.
Proof.
  destruct d as [s buf idx]; unfold dec_wf; simpl; intros -> Hlen.
  destruct buf as [|x0 [|x1 [|x2 [|x3 [|x4 [|x5 [|x6 buf]]]]]]];
    simpl in Hlen; try discriminate.
  eexists; split; [reflexivity|]. split; reflexivity.
Qed.

(** Header search skips every byte but [0xFC]. *)
Lemma noise_run (d : Decoder) (noise : list Z) :
  p_state d = STATE_WAIT_FC -> Forall (fun b => b <> 0xFC) noise ->
  dec_run d noise = Some (d, []).
Proof.
  intros Hs Hn. induction Hn as [|b noise Hb Hn IH]; [reflexivity|].
  simpl. unfold dec_step. rewrite Hs.
  destruct (Z.eqb_spec b 0xFC); [contradiction|].
  by rewrite IH.
Qed.

Lemma raw_of_le (lsb msb : Z) :
  is_byte lsb -> is_byte msb -> raw_of lsb msb = lsb + 256 * msb.
Proof.
  unfold is_byte, raw_of. intros Hl Hm.
  rewrite Z.shiftl_mul_pow2 by lia.
  rewrite <- Z.lxor_lor.
  - rewrite <- Z.add_nocarry_lxor; [lia|].
    apply Z.bits_inj'. intros i Hi. rewrite Z.land_spec, Z.bits_0.
    destruct (Z.lt_ge_cases i 8).
    + rewrite Z.mul_pow2_bits_low by lia. apply andb_false_r.
    + rewrite <- (Z.mod_small lsb (2 ^ 8)) by lia.
      rewrite Z.mod_pow2_bits_high by lia. reflexivity.
  - apply Z.bits_inj'. intros i Hi. rewrite Z.land_spec, Z.bits_0.
    destruct (Z.lt_ge_cases i 8).
    + rewrite Z.mul_pow2_bits_low by lia. apply andb_false_r.
    + rewrite <- (Z.mod_small lsb (2 ^ 8)) by lia.
      rewrite Z.mod_pow2_bits_high by lia. reflexivity.
Qed.

Lemma dec_step_inv (d : Decoder) (b : Z) :
  dec_inv d -> exists d' ev, dec_step d b = Some (d', ev) /\ dec_inv d'.
Proof.
  destruct d as [s buf idx]; unfold dec_inv, dec_wf; simpl; intros [Hlen Hidx].
  unfold dec_step, set_state; destruct s; simpl.
  - eexists _, _; split; [reflexivity|].
    destruct (b =? 0xFC); simpl; split; auto; discriminate.
  - eexists _, _; split; [reflexivity|].
    destruct (b =? 0x0A); [|destruct (b =? 0x05)]; simpl; split; auto; discriminate.
  - eexists _, _; split; [reflexivity|].
    destruct (b =? 0x00); simpl; split; auto; discriminate.
  - eexists _, _; split; [reflexivity|].
    destruct (b =? 0x01); simpl; split; auto; [lia|discriminate].
  - specialize (Hidx eq_refl).
    unfold buf_write, DATA_BUF_LEN.
    replace ((0 <=? idx) && (idx <? 6)) with true
      by (symmetry; apply andb_true_iff; split; apply Z.leb_le || apply Z.ltb_lt; lia).
    rewrite Z.mod_small by lia.
    destruct (Z.geb_spec (idx + 1) 6).
    + eexists _, _; split; [reflexivity|]. simpl.
      split; [by rewrite length_insert|discriminate].
    + eexists _, _; split; [reflexivity|]. simpl.
      split; [by rewrite length_insert|lia].
Qed.

Lemma dec_run_inv (d : Decoder) (bs : list Z) :
  dec_inv d -> exists d' evs, dec_run d bs = Some (d', evs) /\ dec_inv d'.
Proof.
  revert d. induction bs as [|b bs IH]; intros d Hd; simpl.
  - eauto.
  - destruct (dec_step_inv d b Hd) as (d1 & ev & -> & Hd1).
    destruct (IH d1 Hd1) as (d2 & evs & -> & Hd2). eauto.
Qed.

(** C1: a valid frame [FC 0A 00 01 b0 .. b5], fed byte by byte from the
    header-search state, makes the decoder emit exactly one sample, whose
    raw value is the little-endian [b0 + 256 * b1], and leaves it back in
    the header-search state. *)
Theorem valid_frame_emits_one_sample (d : Decoder) (b0 b1 b2 b3 b4 b5 : Z) :
  p_state d = STATE_WAIT_FC -> dec_wf d -> is_byte b0 -> is_byte b1 ->
  exists d', dec_run d (frame [b0; b1; b2; b3; b4; b5]) = Some (d', [(b0, b1)])
             /\ raw_of b0 b1 = b0 + 256 * b1
             /\ p_state d' = STATE_WAIT_FC.
Proof.
  intros Hs Hwf H0 H1.
  destruct (frame_run d b0 b1 b2 b3 b4 b5 Hs Hwf) as (d' & Hrun & Hs' & _).
  exists d'. split; [exact Hrun|]. split; [|exact Hs'].
  by apply raw_of_le.
Qed.

Lemma valid_frame_emits_one_sample_witness :
  exists d', dec_run init_decoder (frame [0xEA; 0x00; 1; 2; 3; 4]) = Some (d', [(0xEA, 0x00)])
             /\ raw_of 0xEA 0x00 = 0xEA + 256 * 0x00
             /\ p_state d' = STATE_WAIT_FC.
Proof.
  apply (valid_frame_emits_one_sample init_decoder 0xEA 0x00 1 2 3 4);
    [reflexivity | reflexivity | unfold is_byte; lia | unfold is_byte; lia].
Defined.

(** C10: from the initial decoder, on any byte sequence, no store into
    [data_buf] is out of bounds (the run never fails), and whenever the
    decoder is reading data the index at the next call is in [0, 5]. *)
Theorem data_buf_store_in_bounds (bs : list Z) :
  exists d' evs, dec_run init_decoder bs = Some (d', evs)
                 /\ (p_state d' = STATE_READ_DATA -> 0 <= data_idx d' <= 5).
Proof.
  assert (Hinit : dec_inv init_decoder).
  { split; [reflexivity|discriminate]. }
  destruct (dec_run_inv init_decoder bs Hinit) as (d' & evs & Hrun & _ & Hidx).
  eauto.
Qed.

(** C8 (counterexample): a single noise byte [0xFC] between two valid
    frames makes the decoder lose the second frame: the stray header
    moves it to [STATE_CHECK_LEN], the real header byte [0xFC] then fails
    the [0x0A] test and sends it back to header search, past the frame's
    own header. *)
Lemma noise_header_byte_loses_frame :
  dec_run init_decoder (frame [1; 0; 0; 0; 0; 0] ++ [0xFC] ++ frame [2; 0; 0; 0; 0; 0])
    = Some (mkDecoder STATE_WAIT_FC [1; 0; 0; 0; 0; 0] 6, [(1, 0)])
  /\ ~ exists d', dec_run init_decoder
                    (frame [1; 0; 0; 0; 0; 0] ++ [0xFC] ++ frame [2; 0; 0; 0; 0; 0])
                  = Some (d', [(1, 0); (2, 0)]).
Proof.
  split; [reflexivity|].
  intros [d' H]. vm_compute in H. congruence.
Qed.

(** C8 (amended): a valid frame, a run of noise containing no [0xFC]
    byte, and a second valid frame, fed from the header-search state,
    emit both samples in order and end in header search. *)
Theorem resync_after_noise_without_header (d : Decoder) (a0 a1 a2 a3 a4 a5 : Z)
    (noise : list Z) (b0 b1 b2 b3 b4 b5 : Z) :
  p_state d = STATE_WAIT_FC -> dec_wf d ->
  Forall (fun b => b <> 0xFC) noise ->
  exists d', dec_run d (frame [a0; a1; a2; a3; a4; a5] ++ noise ++ frame [b0; b1; b2; b3; b4; b5])
               = Some (d', [(a0, a1); (b0, b1)])
             /\ p_state d' = STATE_WAIT_FC.
Proof.
  intros Hs Hwf Hn.
  destruct (frame_run d a0 a1 a2 a3 a4 a5 Hs Hwf) as (d1 & H1 & Hs1 & Hwf1).
  destruct (frame_run d1 b0 b1 b2 b3 b4 b5 Hs1 Hwf1) as (d2 & H2 & Hs2 & _).
  exists d2. rewrite dec_run_app, H1, dec_run_app, (noise_run d1 noise Hs1 Hn), H2.
  split; [reflexivity | exact Hs2].
Qed.

Lemma resync_after_noise_without_header_witness :
  exists d', dec_run init_decoder
               (frame [1; 0; 0; 0; 0; 0] ++ [0x00; 0x0A; 0x55] ++ frame [2; 0; 0; 0; 0; 0])
               = Some (d', [(1, 0); (2, 0)])
             /\ p_state d' = STATE_WAIT_FC.
Proof.
  apply (resync_after_noise_without_header init_decoder 1 0 0 0 0 0
           [0x00; 0x0A; 0x55] 2 0 0 0 0 0);
    [reflexivity | reflexivity | repeat constructor; discriminate].
Defined.

(* ================================================================= *)
(** * Temperature register and time base *)

(** C4: when the decoder emits a sample, the register (value and flag)
    takes the raw value exactly when [raw / 10.0f] lies in [0, 100];
    otherwise the whole monitor state is left unchanged.  In both cases
    the decoder moves to the state its own transition gives, untouched by
    the range test. *)
Theorem range_filter_register (m : Monitor) (d d' : Decoder) (b lsb msb t : Z) :
  dec_step d b = Some (d', Some (lsb, msb)) ->
  (temp_in_range (raw_of lsb msb) = true ->
     exists m', HAL_UART_RxCpltCallback m d b t = Some (m', d')
                /\ g_latest_valid_temp m' = raw_of lsb msb
                /\ g_has_valid_data m' = true) /\
  (temp_in_range (raw_of lsb msb) = false ->
     HAL_UART_RxCpltCallback m d b t = Some (m, d')).
Proof.
  intros Hstep. unfold HAL_UART_RxCpltCallback. rewrite Hstep.
  unfold Update_Temperature. split; intros Hr; rewrite Hr; [|reflexivity].
  simpl. destruct (is_running m && negb (time_synced m));
    eexists; (split; [reflexivity|]); split; reflexivity.
Qed.

(** Raw value 1050 (105.0 C): the frame [.. 1A 04 ..] completes on its
    sixth data byte and leaves the register unchanged. *)
Lemma range_filter_register_witness :
  dec_step (mkDecoder STATE_READ_DATA [0x1A; 0x04; 0; 0; 0; 0] 5) 0
    = Some (mkDecoder STATE_WAIT_FC [0x1A; 0x04; 0; 0; 0; 0] 6, Some (0x1A, 0x04))
  /\ raw_of 0x1A 0x04 = 1050
  /\ temp_in_range (raw_of 0x1A 0x04) = false
  /\ HAL_UART_RxCpltCallback (Monitor_Init 0)
       (mkDecoder STATE_READ_DATA [0x1A; 0x04; 0; 0; 0; 0] 5) 0 1000
     = Some (Monitor_Init 0, mkDecoder STATE_WAIT_FC [0x1A; 0x04; 0; 0; 0; 0] 6).
Proof.
  split; [reflexivity|]. split; [reflexivity|]. split; [reflexivity|].
  apply (range_filter_register (Monitor_Init 0)
           (mkDecoder STATE_READ_DATA [0x1A; 0x04; 0; 0; 0; 0] 5)
           (mkDecoder STATE_WAIT_FC [0x1A; 0x04; 0; 0; 0; 0] 6) 0 0x1A 0x04 1000);
    reflexivity.
Defined.

(** C3: the first in-range value arriving at tick [t] while running and
    not yet synced makes the monitor synced with [TimeBase =
    next_print_tick = t + 250] (in [uint32_t]) and [next_adc_tick = t].
    End to end: a frame carrying raw 234 received at tick 1000 and then
    one poll per millisecond from 1000 to 1500 give [TimeBase = 1250] and
    exactly two reports, at tick 1250 with elapsed 0 ms and at tick 1500
    with elapsed 250 ms, both with temperature raw 234 (23.4 C). *)
Theorem first_valid_value_syncs (m : Monitor) (lsb msb t : Z) :
  is_running m = true -> time_synced m = false ->
  temp_in_range (raw_of lsb msb) = true ->
  (let m' := Update_Temperature m lsb msb t in
   time_synced m' = true
   /\ time_base_tick m' = u32 (t + PRINT_INTERVAL_MS)
   /\ next_print_tick m' = u32 (t + PRINT_INTERVAL_MS)
   /\ next_adc_tick m' = t
   /\ g_latest_valid_temp m' = raw_of lsb msb
   /\ g_has_valid_data m' = true)
  /\ (exists m1 d1, sys_run (Monitor_Init 0) init_decoder
                      (rx_bytes (frame [234; 0; 0; 0; 0; 0]) 1000)
                    = Some (m1, d1, []) /\ time_base_tick m1 = 1250)
  /\ (exists m2 d2, sys_run (Monitor_Init 0) init_decoder
                      (rx_bytes (frame [234; 0; 0; 0; 0; 0]) 1000
                       ++ poll_every_ms 1000 501 1820)
                    = Some (m2, d2, [(1250, mkReport 0 234 1820);
                                     (1500, mkReport 250 234 1820)])).
Proof.
  intros Hrun Hsync Hr. split; [|split].
  - unfold Update_Temperature. rewrite Hr. simpl. rewrite Hrun, Hsync. simpl.
    repeat split.
  - vm_compute. eauto.
  - vm_compute. eauto.
Qed.

Lemma first_valid_value_syncs_witness :
  is_running (Monitor_Init 0) = true /\ time_synced (Monitor_Init 0) = false
  /\ temp_in_range (raw_of 234 0) = true
  /\ time_base_tick (Update_Temperature (Monitor_Init 0) 234 0 1000) = 1250.
Proof.
  split; [reflexivity|]. split; [reflexivity|]. split; [reflexivity|].
  destruct (first_valid_value_syncs (Monitor_Init 0) 234 0 1000
              eq_refl eq_refl eq_refl) as [(_ & Htb & _) _].
  exact Htb.
Defined.

(** C2 (counterexample): synced by a frame at tick 0, so that [TimeBase]
    and the first report deadline are both 250, with polls at the
    jittered ticks 251, 501 and 760 the reported elapsed values are 1,
    251 and 510 ms, not 0, 250 and 500. *)
Lemma elapsed_follows_poll_tick_cex :
  (exists m1 d1, sys_run (Monitor_Init 0) init_decoder
                   (rx_bytes (frame [234; 0; 0; 0; 0; 0]) 0) = Some (m1, d1, [])
                 /\ time_base_tick m1 = 250 /\ next_print_tick m1 = 250)
  /\ reported_elapsed
       (sys_run (Monitor_Init 0) init_decoder
          (rx_bytes (frame [234; 0; 0; 0; 0; 0]) 0
           ++ [Poll 251 false None; Poll 501 false None; Poll 760 false None]))
     = [1; 251; 510]
  /\ reported_elapsed
       (sys_run (Monitor_Init 0) init_decoder
          (rx_bytes (frame [234; 0; 0; 0; 0; 0]) 0
           ++ [Poll 251 false None; Poll 501 false None; Poll 760 false None]))
     <> [0; 250; 500].
Proof.
  split; [vm_compute; eauto|]. split; [reflexivity|].
  vm_compute. congruence.
Qed.

(** C2 (amended): a poll that emits a report does so because the report
    deadline has been reached, and the report's elapsed time is the
    current tick minus [TimeBase], [(int32_t)(now - time_base_tick)]. *)
Theorem report_elapsed_is_now_minus_timebase (m m' : Monitor) (now : Z) (btn : bool)
    (adc : option Z) (r : Report) :
  Monitor_Task m now btn adc = (m', Some r) ->
  next_print_tick m <= now
  /\ elapsed_ms r = to_int32 (u32 (now - time_base_tick m))
  /\ time_base_tick m' = time_base_tick m.
Proof.
  intros Htask. unfold Monitor_Task, button_step, adc_store in Htask.
  repeat case_match; simplify_eq/=;
    (split; [|split; reflexivity]);
    match goal with
    | Hp : (now >=? next_print_tick _) = true |- _ =>
        apply Z.geb_le in Hp; simpl in Hp; exact Hp
    end.
Qed.

Lemma report_elapsed_is_now_minus_timebase_witness :
  exists m' r,
    Monitor_Task (Update_Temperature (Monitor_Init 0) 234 0 0) 251 false None = (m', Some r)
    /\ next_print_tick (Update_Temperature (Monitor_Init 0) 234 0 0) <= 251
    /\ elapsed_ms r = to_int32 (u32 (251 - time_base_tick (Update_Temperature (Monitor_Init 0) 234 0 0)))
    /\ time_base_tick m' = time_base_tick (Update_Temperature (Monitor_Init 0) 234 0 0).
Proof.
  remember (Monitor_Task (Update_Temperature (Monitor_Init 0) 234 0 0) 251 false None)
    as res eqn:E.
  destruct res as [m' [r|]].
  - exists m', r. split; [reflexivity|].
    apply (report_elapsed_is_now_minus_timebase _ m' 251 false None r).
    symmetry. exact E.
  - vm_compute in E. discriminate E.
Defined.

(* ================================================================= *)
(** * Median of the ADC window *)

Lemma bubble_pass_length (m : nat) (l : list Z) :
  length (bubble_pass m l) = length l.
Proof.
  revert l. induction m as [|m IH]; intros l; [reflexivity|].
  destruct l as [|x [|y r]]; [reflexivity|reflexivity|].
  simpl. destruct (x >? y); simpl; by rewrite IH.
Qed.

Lemma bubble_pass_perm (m : nat) (l : list Z) : bubble_pass m l ≡ₚ l.
Proof.
  revert l. induction m as [|m IH]; intros l; [reflexivity|].
  destruct l as [|x [|y r]]; [reflexivity|reflexivity|].
  simpl. destruct (x >? y).
  - rewrite IH. apply Permutation_swap.
  - by rewrite IH.
Qed.

(** A pass of bound [m] only touches the first [m+1] elements. *)
Lemma bubble_pass_app (m : nat) (l1 l2 : list Z) :
  (m < length l1)%nat -> bubble_pass m (l1 ++ l2) = bubble_pass m l1 ++ l2.
Proof.
  revert l1. induction m as [|m IH]; intros l1 Hlen; [reflexivity|].
  destruct l1 as [|x [|y r]]; simpl in Hlen; [lia|lia|].
  simpl. destruct (x >? y); simpl; rewrite <- IH by (simpl; lia); reflexivity.
Qed.

(** A full pass carries the maximum to the last position. *)
Lemma bubble_pass_max (m : nat) (l : list Z) :
  length l = S m ->
  exists l' x, bubble_pass m l = l' ++ [x]
               /\ Forall (fun y => y <= x) l' /\ Forall (fun y => y <= x) l.
Proof.
  revert l. induction m as [|m IH]; intros l Hlen.
  - destruct l as [|x [|y r]]; simpl in Hlen; try lia.
    exists [], x. repeat constructor. lia.
  - destruct l as [|a [|b r]]; simpl in Hlen; try lia.
    simpl. destruct (Z.gtb_spec a b) as [Hab|Hab].
    + destruct (IH (a :: r)) as (l' & x & Hp & Hl' & Hl); [simpl; lia|].
      rewrite Hp. exists (b :: l'), x.
      inversion Hl as [|? ? Ha Hr]; subst.
      split; [reflexivity|]. split.
      * constructor; [lia|exact Hl'].
      * constructor; [exact Ha|constructor; [lia|exact Hr]].
    + destruct (IH (b :: r)) as (l' & x & Hp & Hl' & Hl); [simpl; lia|].
      rewrite Hp. exists (a :: l'), x.
      inversion Hl as [|? ? Hb Hr]; subst.
      split; [reflexivity|]. split.
      * constructor; [lia|exact Hl'].
      * constructor; [lia|constructor; [exact Hb|exact Hr]].
Qed.

Lemma bubble_rounds_app (k : nat) (l1 l2 : list Z) :
  (k < length l1)%nat -> bubble_rounds k (l1 ++ l2) = bubble_rounds k l1 ++ l2.
Proof.
  revert l1. induction k as [|k IH]; intros l1 Hlen; [reflexivity|].
  cbn [bubble_rounds]. rewrite bubble_pass_app by lia.
  apply IH. rewrite bubble_pass_length. lia.
Qed.

Lemma bubble_rounds_sorted (k : nat) (l : list Z) :
  length l = S k ->
  Sorted Z.le (bubble_rounds k l) /\ bubble_rounds k l ≡ₚ l.
Proof.
  revert l. induction k as [|k IH]; intros l Hlen.
  - destruct l as [|x [|y r]]; simpl in Hlen; try lia.
    split; [repeat constructor|reflexivity].
  - cbn [bubble_rounds].
    destruct (bubble_pass_max (S k) l Hlen) as (l' & x & Hp & Hl' & _).
    assert (Hlen' : length l' = S k).
    { pose proof (bubble_pass_length (S k) l) as E. rewrite Hp, length_app in E.
      simpl in E. lia. }
    rewrite Hp, bubble_rounds_app by lia.
    destruct (IH l' Hlen') as [Hs Hperm].
    split.
    + apply Sorted_snoc; [exact Hs|].
      destruct (bubble_rounds k l') as [|y s] eqn:E using rev_ind; [constructor|].
      constructor. rewrite <- E in *.
      assert (Hall : Forall (fun y => y <= x) (bubble_rounds k l')).
      { by rewrite Hperm. }
      rewrite E in Hall. apply Forall_app in Hall as [_ Hy].
      by inversion Hy.
    + rewrite <- (bubble_pass_perm (S k) l), Hp.
      by rewrite Hperm.
Qed.

(** C7: for a non-empty window of [n] readings, [Get_Median_ADC] returns
    the element at index [n / 2] of the sorted window contents (any
    sorted permutation of them, which is unique). *)
Theorem median_is_middle_of_sorted (m : Monitor) (s : list Z) :
  1 <= adc_count m <= MAX_ADC_SAMPLES -> length (adc_values m) = 10%nat ->
  Sorted Z.le s -> s ≡ₚ take (Z.to_nat (adc_count m)) (adc_values m) ->
  Get_Median_ADC m = nth (Z.to_nat (adc_count m) / 2) s 0.
Proof.
  unfold MAX_ADC_SAMPLES. intros Hc Hlen Hs Hperm.
  unfold Get_Median_ADC, bubble_sort.
  replace (adc_count m =? 0) with false by (symmetry; apply Z.eqb_neq; lia).
  cbv zeta.
  assert (Htake : length (take (Z.to_nat (adc_count m)) (adc_values m))
                  = S (Z.to_nat (adc_count m) - 1)).
  { rewrite length_take. lia. }
  destruct (bubble_rounds_sorted _ _ Htake) as [Hbs Hbp].
  f_equal. apply (Sorted_unique Z.le); [exact Hbs|exact Hs|].
  by rewrite Hbp, Hperm.
Qed.

Lemma median_is_middle_of_sorted_witness :
  Get_Median_ADC (set_window init_monitor [5; 1; 4; 2; 3; 0; 0; 0; 0; 0] 5)
    = nth 2 [1; 2; 3; 4; 5] 0
  /\ nth 2 [1; 2; 3; 4; 5] 0 = 3
  /\ Get_Median_ADC (set_window init_monitor [4; 1; 3; 2; 0; 0; 0; 0; 0; 0] 4)
    = nth 2 [1; 2; 3; 4] 0
  /\ nth 2 [1; 2; 3; 4] 0 = 3.
Proof.
  split; [|split; [reflexivity|split; [|reflexivity]]].
  - apply (median_is_middle_of_sorted
             (set_window init_monitor [5; 1; 4; 2; 3; 0; 0; 0; 0; 0] 5) [1; 2; 3; 4; 5]).
    + unfold MAX_ADC_SAMPLES; simpl; lia.
    + reflexivity.
    + repeat constructor; lia.
    + simpl. solve_Permutation.
  - apply (median_is_middle_of_sorted
             (set_window init_monitor [4; 1; 3; 2; 0; 0; 0; 0; 0; 0] 4) [1; 2; 3; 4]).
    + unfold MAX_ADC_SAMPLES; simpl; lia.
    + reflexivity.
    + repeat constructor; lia.
    + simpl. solve_Permutation.
Defined.

(* ================================================================= *)
(** * The ADC window *)

Lemma adc_store_inv (m : Monitor) (v : Z) : win_inv m -> win_inv (adc_store m v).
Proof.
  unfold win_inv, adc_store, MAX_ADC_SAMPLES. intros [Hc Hl].
  destruct (Z.ltb_spec (adc_count m) 10); simpl; [|auto].
  rewrite length_insert, Z.mod_small by lia. split; [lia|exact Hl].
Qed.

(** Discharges [win_inv] goals through the field projections, first
    abstracting every [adc_store] call together with its invariant. *)
Ltac win_tac :=
  repeat match goal with
    | |- context [adc_store ?x ?v] =>
        let H := fresh "Hst" in
        assert (H : win_inv (adc_store x v))
          by (apply adc_store_inv; unfold win_inv in *; simpl in *; lia);
        revert H; generalize (adc_store x v); intros ? ?
    end;
  unfold win_inv in *; simpl in *; lia.

Lemma Monitor_Task_win_inv (m m' : Monitor) (now : Z) (btn : bool) (adc : option Z)
    (rep : option Report) :
  win_inv m -> Monitor_Task m now btn adc = (m', rep) ->
  win_inv m' /\ (rep <> None -> adc_count m' = 0).
Proof.
  intros Hinv Htask.
  assert (Hb : win_inv (button_step m btn)).
  { unfold button_step. destruct btn; [|exact Hinv].
    destruct (negb (is_running m)); unfold win_inv in *; simpl; lia. }
  unfold Monitor_Task in Htask.
  remember (button_step m btn) as m1 eqn:E1. clear E1.
  repeat case_match; simplify_eq/=;
    (split; [win_tac | intros Hne; first [reflexivity | congruence]]).
Qed.

Lemma rx_callback_keeps_window (m m' : Monitor) (d d' : Decoder) (b t : Z) :
  HAL_UART_RxCpltCallback m d b t = Some (m', d') ->
  adc_values m' = adc_values m /\ adc_count m' = adc_count m.
Proof.
  intros Hcb. unfold HAL_UART_RxCpltCallback, Update_Temperature in Hcb.
  repeat case_match; simplify_eq/=; auto.
Qed.

(** C5 (counterexample): the window is not a full ring of N readings.
    Right after synchronisation and one ADC sample it holds a single
    reading (count 1), and a push on a full window (count 10) drops the
    new reading instead of overwriting the oldest one. *)
Lemma adc_window_not_a_ring_cex :
  (exists m d, sys_run (Monitor_Init 0) init_decoder
                 (rx_bytes (frame [234; 0; 0; 0; 0; 0]) 0 ++ [Poll 0 false (Some 1820)])
               = Some (m, d, [])
               /\ adc_count m = 1
               /\ adc_values m = [1820; 0; 0; 0; 0; 0; 0; 0; 0; 0])
  /\ adc_store (set_window (Monitor_Init 0) [1; 2; 3; 4; 5; 6; 7; 8; 9; 10] 10) 11
     = set_window (Monitor_Init 0) [1; 2; 3; 4; 5; 6; 7; 8; 9; 10] 10
  /\ 11 ∉ adc_values
           (adc_store (set_window (Monitor_Init 0) [1; 2; 3; 4; 5; 6; 7; 8; 9; 10] 10) 11).
Proof.
  split; [vm_compute; eauto|]. split; [reflexivity|].
  simpl. intros Hin. repeat (inversion Hin as [|? ? ? Hin']; subst; clear Hin; rename Hin' into Hin).
Qed.

(** C5 (amended): the window is a bounded accumulator of capacity
    [MAX_ADC_SAMPLES = 10].  It starts empty; a push appends at index
    [adc_count] while the window is not full and leaves it unchanged
    when it is full; every poll keeps [0 <= adc_count <= 10] with the
    10-slot array, and empties the window when it emits a report; the
    receive callback never touches it. *)
Theorem adc_window_bounded_accumulator (m : Monitor) (v : Z) :
  win_inv m ->
  adc_count (Monitor_Init 0) = 0 /\ win_inv (Monitor_Init 0)
  /\ (adc_count m < MAX_ADC_SAMPLES ->
      adc_store m v = set_window m (<[Z.to_nat (adc_count m) := v]> (adc_values m))
                                 (adc_count m + 1))
  /\ (adc_count m = MAX_ADC_SAMPLES -> adc_store m v = m)
  /\ (forall now btn adc m' rep, Monitor_Task m now btn adc = (m', rep) ->
        win_inv m' /\ (rep <> None -> adc_count m' = 0))
  /\ (forall d b t m' d', HAL_UART_RxCpltCallback m d b t = Some (m', d') ->
        adc_values m' = adc_values m /\ adc_count m' = adc_count m).
Proof.
  intros Hinv. split; [reflexivity|]. split.
  { unfold win_inv, MAX_ADC_SAMPLES. simpl. split; [lia|reflexivity]. }
  split; [|split; [|split]].
  - intros Hlt. unfold adc_store. apply Z.ltb_lt in Hlt. rewrite Hlt.
    destruct Hinv as [Hc _]. unfold MAX_ADC_SAMPLES in *.
    rewrite Z.mod_small by lia. reflexivity.
  - intros Heq. unfold adc_store. rewrite Heq, Z.ltb_irrefl. reflexivity.
  - intros now btn adc m' rep. by apply Monitor_Task_win_inv.
  - intros d b t m' d'. apply rx_callback_keeps_window.
Qed.

Lemma adc_window_bounded_accumulator_witness :
  win_inv (Monitor_Init 0)
  /\ adc_store (Monitor_Init 0) 1820
     = set_window (Monitor_Init 0) (<[0%nat := 1820]> (adc_values (Monitor_Init 0))) 1.
Proof.
  assert (Hw : win_inv (Monitor_Init 0)).
  { unfold win_inv, MAX_ADC_SAMPLES. simpl. split; [lia|reflexivity]. }
  split; [exact Hw|].
  destruct (adc_window_bounded_accumulator (Monitor_Init 0) 1820 Hw)
    as (_ & _ & Hpush & _).
  apply Hpush. reflexivity.
Defined.

(* ================================================================= *)
(** * Deadlines *)

(** Away from the [uint32_t] wrap, a fired deadline [d <= now] moves to
    [d + period], or to [now + period] when [d + period < now]; it never
    goes backwards and lands at or after [now]. *)
Lemma advance_deadline_no_wrap (d period now : Z) :
  0 <= d <= now -> 0 < period -> now + period < two32 ->
  advance_deadline d period now = (if d + period <? now then now + period else d + period)
  /\ d + period <= advance_deadline d period now
  /\ now <= advance_deadline d period now.
Proof.
  intros Hd Hp Hn. unfold advance_deadline, u32.
  rewrite (Z.mod_small (d + period)) by lia.
  destruct (Z.ltb_spec (d + period) now).
  - rewrite Z.mod_small by lia. lia.
  - lia.
Qed.

(** C6 (failing input): synchronised by a frame at tick 2^32 - 296, the
    report deadline [4294967250] fires, [next_print_tick += 250] wraps
    to 204, the resynchronisation [now + 250] wraps to 204 as well, and
    from then on both deadlines fire on every poll: reports come out at
    three consecutive milliseconds, and the sample deadline ends at 6. *)
Theorem deadline_burst_at_tick_wrap :
  exists m d, sys_run (Monitor_Init 0) init_decoder
                (rx_bytes (frame [234; 0; 0; 0; 0; 0]) 4294967000
                 ++ [Poll 4294967200 false (Some 1); Poll 4294967250 false (Some 2);
                     Poll 4294967251 false (Some 3); Poll 4294967252 false (Some 4)])
              = Some (m, d, [(4294967250, mkReport 0 234 2);
                             (4294967251, mkReport 1 234 3);
                             (4294967252, mkReport 2 234 4)])
              /\ next_print_tick m = 206 /\ next_adc_tick m = 6.
Proof. vm_compute. eauto. Qed.

(* ================================================================= *)
(** * Further properties of the decoder and the scheduler *)

Lemma take_snoc_insert (buf : list Z) (k : nat) (b : Z) :
  (k < length buf)%nat -> take (S k) (<[k := b]> buf) = take k buf ++ [b].
Proof.
  intros Hk. rewrite (take_S_r _ _ b).
  - by rewrite take_insert_ge by lia.
  - by apply list_lookup_insert_eq.
Qed.

Lemma frame_inv_step (d d' : Decoder) (consumed : list Z) (b : Z) (ev : option Sample) :
  frame_inv d consumed -> dec_step d b = Some (d', ev) ->
  frame_inv d' (consumed ++ [b])
  /\ (forall s, ev = Some s ->
        exists pre data, consumed ++ [b] = pre ++ frame data
                         /\ length data = 6%nat /\ s = (nth 0 data 0, nth 1 data 0)).
Proof.
  destruct d as [st buf idx]. unfold frame_inv, dec_wf, dec_step, set_state; simpl.
  intros [Hlen Hst] Hstep.
  destruct st; simpl in Hstep.
  - destruct (Z.eqb_spec b 0xFC); injection Hstep as <- <-;
      (split; [|intros s Hs; discriminate]); simpl; split; auto.
    subst. eauto.
  - destruct Hst as [pre ->].
    destruct (Z.eqb_spec b 0x0A); [|destruct (b =? 0x05)];
      injection Hstep as <- <-; (split; [|intros s Hs; discriminate]); simpl; split; auto.
    subst. exists pre. by rewrite <- app_assoc.
  - destruct Hst as [pre ->].
    destruct (Z.eqb_spec b 0x00); injection Hstep as <- <-;
      (split; [|intros s Hs; discriminate]); simpl; split; auto.
    subst. exists pre. by rewrite <- app_assoc.
  - destruct Hst as [pre ->].
    destruct (Z.eqb_spec b 0x01); injection Hstep as <- <-;
      (split; [|intros s Hs; discriminate]); simpl; split; auto.
    subst. split; [lia|]. exists pre. simpl. by rewrite <- app_assoc.
  - destruct Hst as [Hidx [pre ->]].
    unfold buf_write, DATA_BUF_LEN in Hstep.
    replace ((0 <=? idx) && (idx <? 6)) with true in Hstep
      by (symmetry; apply andb_true_iff; split; apply Z.leb_le || apply Z.ltb_lt; lia).
    rewrite Z.mod_small in Hstep by lia.
    assert (Htk : take (Z.to_nat (idx + 1)) (<[Z.to_nat idx := b]> buf)
                  = take (Z.to_nat idx) buf ++ [b]).
    { replace (Z.to_nat (idx + 1)) with (S (Z.to_nat idx)) by lia.
      apply take_snoc_insert. lia. }
    destruct (Z.geb_spec (idx + 1) 6); injection Hstep as <- <-; simpl.
    + split.
      * split; [by rewrite length_insert|exact I].
      * intros s [= <-]. exists pre, (<[Z.to_nat idx := b]> buf).
        split; [|split; [by rewrite length_insert|reflexivity]].
        rewrite <- app_assoc. simpl. rewrite <- Htk.
        rewrite take_ge by (rewrite length_insert; lia). reflexivity.
    + split; [|intros s Hs; discriminate].
      split; [by rewrite length_insert|]. split; [lia|].
      exists pre. rewrite Htk. by rewrite <- !app_assoc.
Qed.

Lemma frame_inv_run (bs : list Z) :
  forall d evs, dec_run init_decoder bs = Some (d, evs) ->
  frame_inv d bs
  /\ (forall s, s ∈ evs ->
        exists pre data rest, bs = pre ++ frame data ++ rest
                              /\ length data = 6%nat
                              /\ s = (nth 0 data 0, nth 1 data 0)).
Proof.
  induction bs as [|b bs IH] using rev_ind; intros d evs Hrun.
  - injection Hrun as <- <-. split.
    + split; [reflexivity|exact I].
    + intros s Hs. by apply elem_of_nil in Hs.
  - rewrite dec_run_app in Hrun.
    destruct (dec_run init_decoder bs) as [[d1 e1]|] eqn:E1; [|discriminate].
    simpl in Hrun.
    destruct (dec_step d1 b) as [[d2 ev]|] eqn:E2; [|discriminate].
    injection Hrun as <- <-.
    destruct (IH d1 e1 eq_refl) as [Hinv Hold].
    destruct (frame_inv_step d1 d2 bs b ev Hinv E2) as [Hinv' Hnew].
    split; [exact Hinv'|].
    intros s Hs. rewrite app_nil_r in Hs. apply elem_of_app in Hs as [Hs|Hs].
    + destruct (Hold s Hs) as (pre & data & rest & -> & Hl & Hse).
      exists pre, data, (rest ++ [b]). split; [|auto].
      by rewrite <- !app_assoc.
    + destruct ev as [s0|]; simpl in Hs; [|by apply elem_of_nil in Hs].
      apply list_elem_of_singleton in Hs as ->.
      destruct (Hnew s0 eq_refl) as (pre & data & Heq & Hl & Hse).
      exists pre, data, []. rewrite app_nil_r. auto.
Qed.

(** Soundness of the decoder: every sample emitted on a byte sequence
    fed from the initial decoder comes from a complete frame
    [FC 0A 00 01 d0 .. d5] occurring in that sequence, and is [(d0, d1)]. *)
Theorem emitted_sample_comes_from_frame (bs : list Z) (d : Decoder) (evs : list Sample)
    (s : Sample) :
  dec_run init_decoder bs = Some (d, evs) -> s ∈ evs ->
  exists pre data rest, bs = pre ++ frame data ++ rest
                        /\ length data = 6%nat
                        /\ s = (nth 0 data 0, nth 1 data 0).
Proof.
  intros Hrun Hs. exact (proj2 (frame_inv_run bs d evs Hrun) s Hs).
Qed.

Lemma emitted_sample_comes_from_frame_witness :
  exists pre data rest,
    [0x33; 0xFC; 0x0A; 0x00; 0x01; 7; 1; 0; 0; 0; 0; 0x44]
      = pre ++ frame data ++ rest
    /\ length data = 6%nat /\ (7, 1) = (nth 0 data 0, nth 1 data 0).
Proof.
  apply (emitted_sample_comes_from_frame _
           (mkDecoder STATE_WAIT_FC [7; 1; 0; 0; 0; 0] 6) [(7, 1)]).
  - reflexivity.
  - by apply list_elem_of_singleton.
Defined.

(** Header search: from the header-search state, bytes other than [0xFC]
    leave the decoder exactly as it was and emit nothing. *)
Theorem header_search_skips_other_bytes (d : Decoder) (bs : list Z) :
  p_state d = STATE_WAIT_FC -> Forall (fun b => b <> 0xFC) bs ->
  dec_run d bs = Some (d, []).
Proof. apply noise_run. Qed.

Lemma header_search_skips_other_bytes_witness :
  dec_run init_decoder [0x00; 0x0A; 0x01; 0xFB] = Some (init_decoder, []).
Proof.
  apply header_search_skips_other_bytes; [reflexivity|].
  repeat constructor; discriminate.
Defined.

Lemma Monitor_Task_register (m m' : Monitor) (now : Z) (btn : bool) (adc : option Z)
    (rep : option Report) :
  Monitor_Task m now btn adc = (m', rep) ->
  g_latest_valid_temp m' = g_latest_valid_temp m /\ g_has_valid_data m' = g_has_valid_data m.
Proof.
  intros Htask. unfold Monitor_Task, button_step, adc_store in Htask.
  repeat case_match; simplify_eq/=; auto.
Qed.

Lemma Monitor_Task_report (m m' : Monitor) (now : Z) (btn : bool) (adc : option Z)
    (r : Report) :
  Monitor_Task m now btn adc = (m', Some r) ->
  temp_raw r = g_latest_valid_temp m /\ g_has_valid_data m = true
  /\ is_running m' = true /\ time_synced m' = true.
Proof.
  intros Htask. unfold Monitor_Task, button_step, adc_store in Htask.
  repeat case_match; simplify_eq/=;
    repeat match goal with
    | H : _ && _ = true |- _ => apply andb_true_iff in H as [? ?]
    end; auto.
Qed.

Lemma callback_register (m m' : Monitor) (d d' : Decoder) (b t : Z) :
  reg_inv m -> HAL_UART_RxCpltCallback m d b t = Some (m', d') ->
  reg_inv m' /\ (g_has_valid_data m = true -> g_has_valid_data m' = true).
Proof.
  unfold reg_inv. intros Hinv Hcb.
  unfold HAL_UART_RxCpltCallback, Update_Temperature in Hcb.
  repeat case_match; simplify_eq/=; auto;
    match goal with
    | H : temp_in_range _ = true |- _ =>
        unfold temp_in_range in H; apply andb_true_iff in H as [H1 H2];
        apply Z.leb_le in H1; apply Z.leb_le in H2; auto
    end.
Qed.

(** The temperature register only ever holds an accepted value: from a
    state where it lies in [0, 1000] (0.0 to 100.0 C), any run keeps it
    there, never clears the ever-received flag once set, and every
    report carries a temperature in that range. *)
Theorem register_stays_in_range (evs : list SysEvent) :
  forall m d m' d' reps, reg_inv m -> sys_run m d evs = Some (m', d', reps) ->
  reg_inv m'
  /\ (g_has_valid_data m = true -> g_has_valid_data m' = true)
  /\ (forall tick r, (tick, r) ∈ reps -> 0 <= temp_raw r <= 1000).
Proof.
  induction evs as [|e evs IH]; intros m d m' d' reps Hinv Hrun; simpl in Hrun.
  - injection Hrun as <- <- <-. split; [exact Hinv|]. split; [auto|].
    intros tick r Hr. by apply elem_of_nil in Hr.
  - destruct e as [b now|now btn adc].
    + destruct (HAL_UART_RxCpltCallback m d b now) as [[m1 d1]|] eqn:E; [|discriminate].
      destruct (callback_register m m1 d d1 b now Hinv E) as [Hinv1 Hhas1].
      destruct (IH m1 d1 m' d' reps Hinv1 Hrun) as (? & ? & ?). auto.
    + destruct (Monitor_Task m now btn adc) as [m1 rep] eqn:E.
      destruct (sys_run m1 d evs) as [[[m2 d2] reps2]|] eqn:E2; [|discriminate].
      injection Hrun as <- <- <-.
      destruct (Monitor_Task_register m m1 now btn adc rep E) as [Hl Hh].
      assert (Hinv1 : reg_inv m1) by (unfold reg_inv in *; by rewrite Hl).
      destruct (IH m1 d m2 d2 reps2 Hinv1 E2) as (Hinv2 & Hhas2 & Hreps2).
      split; [exact Hinv2|]. split; [intros; apply Hhas2; congruence|].
      intros tick r Hr. destruct rep as [r0|].
      * apply elem_of_cons in Hr as [Heq|Hr]; [|eauto].
        injection Heq as _ ->.
        destruct (Monitor_Task_report m m1 now btn adc r0 E) as [-> _].
        unfold reg_inv in Hinv. lia.
      * eauto.
Qed.

Lemma register_stays_in_range_witness :
  exists m' d' reps,
    sys_run (Monitor_Init 0) init_decoder
      (rx_bytes (frame [0x1A; 0x04; 0; 0; 0; 0]) 0 ++ rx_bytes (frame [234; 0; 0; 0; 0; 0]) 10
       ++ [Poll 260 false (Some 5)]) = Some (m', d', reps)
    /\ reg_inv m' /\ (g_has_valid_data (Monitor_Init 0) = true -> g_has_valid_data m' = true)
    /\ (forall tick r, (tick, r) ∈ reps -> 0 <= temp_raw r <= 1000).
Proof.
  remember (sys_run (Monitor_Init 0) init_decoder
      (rx_bytes (frame [0x1A; 0x04; 0; 0; 0; 0]) 0 ++ rx_bytes (frame [234; 0; 0; 0; 0; 0]) 10
       ++ [Poll 260 false (Some 5)])) as res eqn:E.
  destruct res as [[[m' d'] reps]|]; [|vm_compute in E; discriminate E].
  exists m', d', reps. split; [reflexivity|].
  apply (register_stays_in_range
           (rx_bytes (frame [0x1A; 0x04; 0; 0; 0; 0]) 0
            ++ rx_bytes (frame [234; 0; 0; 0; 0; 0]) 10 ++ [Poll 260 false (Some 5)])
           (Monitor_Init 0) init_decoder m' d' reps).
  - unfold reg_inv. simpl. lia.
  - symmetry. exact E.
Defined.

(** A report is only emitted while running, synchronised and with a
    received temperature, and it carries the register's value. *)
Theorem report_carries_register (m m' : Monitor) (now : Z) (btn : bool) (adc : option Z)
    (r : Report) :
  Monitor_Task m now btn adc = (m', Some r) ->
  temp_raw r = g_latest_valid_temp m /\ g_has_valid_data m = true
  /\ is_running m' = true /\ time_synced m' = true.
Proof. apply Monitor_Task_report. Qed.

Lemma report_carries_register_witness :
  exists m' r,
    Monitor_Task (Update_Temperature (Monitor_Init 0) 234 0 0) 250 false (Some 7) = (m', Some r)
    /\ temp_raw r = g_latest_valid_temp (Update_Temperature (Monitor_Init 0) 234 0 0)
    /\ g_has_valid_data (Update_Temperature (Monitor_Init 0) 234 0 0) = true
    /\ is_running m' = true /\ time_synced m' = true.
Proof.
  remember (Monitor_Task (Update_Temperature (Monitor_Init 0) 234 0 0) 250 false (Some 7))
    as res eqn:E.
  destruct res as [m' [r|]]; [|vm_compute in E; discriminate E].
  exists m', r. split; [reflexivity|].
  apply (report_carries_register _ m' 250 false (Some 7) r). symmetry. exact E.
Defined.

Lemma Monitor_Task_no_button_sync (m m' : Monitor) (now : Z) (adc : option Z)
    (rep : option Report) :
  Monitor_Task m now false adc = (m', rep) ->
  time_base_tick m' = time_base_tick m /\ time_synced m' = time_synced m
  /\ is_running m' = is_running m.
Proof.
  intros Htask. unfold Monitor_Task, button_step, adc_store in Htask.
  repeat case_match; simplify_eq/=; auto.
Qed.

Lemma callback_keeps_sync (m m' : Monitor) (d d' : Decoder) (b t : Z) :
  time_synced m = true -> HAL_UART_RxCpltCallback m d b t = Some (m', d') ->
  time_base_tick m' = time_base_tick m /\ time_synced m' = true.
Proof.
  intros Hs Hcb. unfold HAL_UART_RxCpltCallback, Update_Temperature in Hcb.
  repeat case_match; simplify_eq/=; auto;
    match goal with
    | H : _ && negb _ = true |- _ => rewrite Hs, andb_false_r in H; discriminate
    end.
Qed.

(** Once synchronised, the time base never moves and the monitor stays
    synchronised, whatever bytes arrive and however the polls are timed,
    as long as the button is not pressed. *)
Theorem timebase_fixed_while_synced (evs : list SysEvent) :
  forall m d m' d' reps, no_button evs -> time_synced m = true ->
  sys_run m d evs = Some (m', d', reps) ->
  time_base_tick m' = time_base_tick m /\ time_synced m' = true.
Proof.
  induction evs as [|e evs IH]; intros m d m' d' reps Hnb Hs Hrun;
    inversion Hnb as [|? ? He Hnb']; subst; simpl in Hrun.
  - injection Hrun as <- <- <-. auto.
  - destruct e as [b now|now btn adc].
    + destruct (HAL_UART_RxCpltCallback m d b now) as [[m1 d1]|] eqn:E; [|discriminate].
      destruct (callback_keeps_sync m m1 d d1 b now Hs E) as [Htb1 Hs1].
      destruct (IH m1 d1 m' d' reps Hnb' Hs1 Hrun) as [Htb2 Hs2].
      split; [congruence|exact Hs2].
    + destruct btn; [contradiction|].
      destruct (Monitor_Task m now false adc) as [m1 rep] eqn:E.
      destruct (sys_run m1 d evs) as [[[m2 d2] reps2]|] eqn:E2; [|discriminate].
      injection Hrun as <- <- <-.
      destruct (Monitor_Task_no_button_sync m m1 now adc rep E) as (Htb1 & Hs1 & _).
      destruct (IH m1 d m2 d2 reps2 Hnb' ltac:(congruence) E2) as [Htb2 Hs2].
      split; [congruence|exact Hs2].
Qed.

Lemma timebase_fixed_while_synced_witness :
  exists m' d' reps,
    sys_run (Update_Temperature (Monitor_Init 0) 234 0 1000) init_decoder
      (rx_bytes (frame [100; 0; 0; 0; 0; 0]) 1100 ++ [Poll 1300 false (Some 3)])
      = Some (m', d', reps)
    /\ time_base_tick m' = time_base_tick (Update_Temperature (Monitor_Init 0) 234 0 1000)
    /\ time_synced m' = true.
Proof.
  remember (sys_run (Update_Temperature (Monitor_Init 0) 234 0 1000) init_decoder
      (rx_bytes (frame [100; 0; 0; 0; 0; 0]) 1100 ++ [Poll 1300 false (Some 3)])) as res eqn:E.
  destruct res as [[[m' d'] reps]|]; [|vm_compute in E; discriminate E].
  exists m', d', reps. split; [reflexivity|].
  apply (timebase_fixed_while_synced
           (rx_bytes (frame [100; 0; 0; 0; 0; 0]) 1100 ++ [Poll 1300 false (Some 3)])
           _ init_decoder m' d' reps).
  - repeat constructor.
  - reflexivity.
  - symmetry. exact E.
Defined.

(** A poll without button press while stopped, or while running but not
    yet synchronised, neither samples nor reports: it can only move the
    LED deadline. *)
Theorem idle_poll_only_moves_led (m : Monitor) (now : Z) (adc : option Z) :
  is_running m && time_synced m = false ->
  exists nl, Monitor_Task m now false adc
             = (set_deadlines m (next_adc_tick m) (next_print_tick m) nl, None).
Proof.
  intros Hidle. unfold Monitor_Task, button_step.
  destruct (now >=? next_led_tick m); simpl; rewrite Hidle; eauto.
  exists (next_led_tick m). by destruct m.
Qed.

Lemma idle_poll_only_moves_led_witness :
  exists nl, Monitor_Task (Monitor_Init 0) 20000 false (Some 9)
             = (set_deadlines (Monitor_Init 0) 0 0 nl, None).
Proof.
  exact (idle_poll_only_moves_led (Monitor_Init 0) 20000 (Some 9) eq_refl).
Defined.

Lemma callback_stopped (m m' : Monitor) (d d' : Decoder) (b t : Z) :
  is_running m = false -> HAL_UART_RxCpltCallback m d b t = Some (m', d') ->
  sched_frozen m m'.
Proof.
  intros Hr Hcb. unfold HAL_UART_RxCpltCallback, Update_Temperature in Hcb.
  unfold sched_frozen.
  repeat case_match; simplify_eq/=; auto 10;
    match goal with
    | H : _ && negb _ = true |- _ => rewrite Hr in H; discriminate
    end.
Qed.

(** While stopped, and as long as the button is not pressed, nothing of
    the scheduler moves (mode, time base, sample and report deadlines,
    ADC window) and no report is emitted, although received frames still
    update the temperature register. *)
Theorem stopped_monitor_stays_idle (evs : list SysEvent) :
  forall m d m' d' reps, no_button evs -> is_running m = false ->
  sys_run m d evs = Some (m', d', reps) ->
  reps = [] /\ sched_frozen m m'.
Proof.
  unfold sched_frozen.
  induction evs as [|e evs IH]; intros m d m' d' reps Hnb Hr Hrun;
    inversion Hnb as [|? ? He Hnb']; subst; simpl in Hrun.
  - injection Hrun as <- <- <-. auto 10.
  - destruct e as [b now|now btn adc].
    + destruct (HAL_UART_RxCpltCallback m d b now) as [[m1 d1]|] eqn:E; [|discriminate].
      destruct (callback_stopped m m1 d d1 b now Hr E) as (H1 & H2 & H3 & H4 & H5 & H6 & H7).
      destruct (IH m1 d1 m' d' reps Hnb' ltac:(congruence) Hrun)
        as (Hreps & G1 & G2 & G3 & G4 & G5 & G6 & G7).
      split; [exact Hreps|]. repeat split; congruence.
    + destruct btn; [contradiction|].
      destruct (idle_poll_only_moves_led m now adc ltac:(by rewrite Hr)) as [nl E].
      rewrite E in Hrun.
      destruct (sys_run (set_deadlines m (next_adc_tick m) (next_print_tick m) nl) d evs)
        as [[[m2 d2] reps2]|] eqn:E2; [|discriminate].
      injection Hrun as <- <- <-.
      destruct (IH (set_deadlines m (next_adc_tick m) (next_print_tick m) nl)
                   d m2 d2 reps2 Hnb' Hr E2)
        as (Hreps & G1 & G2 & G3 & G4 & G5 & G6 & G7).
      simpl in *. auto 10.
Qed.

Lemma stopped_monitor_stays_idle_witness :
  exists m' d' reps,
    sys_run (set_run (Monitor_Init 0) false false) init_decoder
      (rx_bytes (frame [234; 0; 0; 0; 0; 0]) 100 ++ [Poll 400 false (Some 3); Poll 700 false None])
      = Some (m', d', reps)
    /\ reps = [] /\ sched_frozen (set_run (Monitor_Init 0) false false) m'.
Proof.
  remember (sys_run (set_run (Monitor_Init 0) false false) init_decoder
      (rx_bytes (frame [234; 0; 0; 0; 0; 0]) 100 ++ [Poll 400 false (Some 3); Poll 700 false None]))
    as res eqn:E.
  destruct res as [[[m' d'] reps]|]; [|vm_compute in E; discriminate E].
  exists m', d', reps. split; [reflexivity|].
  apply (stopped_monitor_stays_idle
           (rx_bytes (frame [234; 0; 0; 0; 0; 0]) 100
            ++ [Poll 400 false (Some 3); Poll 700 false None])
           _ init_decoder m' d' reps).
  - repeat constructor.
  - reflexivity.
  - symmetry. exact E.
Defined.

Lemma press_while_running (m : Monitor) (now : Z) (adc : option Z) :
  is_running m = true ->
  exists nl, Monitor_Task m now true adc
             = (set_deadlines (set_run m false (time_synced m))
                              (next_adc_tick m) (next_print_tick m) nl, None).
Proof.
  intros Hr. unfold Monitor_Task, button_step. rewrite Hr. simpl.
  destruct (now >=? next_led_tick m); simpl; eexists; reflexivity.
Qed.

Lemma press_while_stopped (m : Monitor) (now : Z) (adc : option Z) :
  is_running m = false ->
  exists nl, Monitor_Task m now true adc
             = (set_deadlines (set_window (set_run m true false) (adc_values m) 0)
                              (next_adc_tick m) (next_print_tick m) nl, None).
Proof.
  intros Hr. unfold Monitor_Task, button_step. rewrite Hr. simpl.
  destruct (now >=? next_led_tick m); simpl; eexists; reflexivity.
Qed.

(** Stop then start: the first press stops the monitor, the second one
    restarts it unsynchronised with an empty ADC window (neither poll
    reports), and the next accepted temperature, arriving at tick [t],
    re-establishes the time base at [t + 250] and the sample deadline at
    [t], whatever the previous time base was. *)
Theorem restart_resyncs_on_next_frame (m : Monitor) (n1 n2 t lsb msb : Z)
    (a1 a2 : option Z) :
  is_running m = true -> temp_in_range (raw_of lsb msb) = true ->
  snd (Monitor_Task m n1 true a1) = None
  /\ is_running (fst (Monitor_Task m n1 true a1)) = false
  /\ snd (Monitor_Task (fst (Monitor_Task m n1 true a1)) n2 true a2) = None
  /\ is_running (fst (Monitor_Task (fst (Monitor_Task m n1 true a1)) n2 true a2)) = true
  /\ time_synced (fst (Monitor_Task (fst (Monitor_Task m n1 true a1)) n2 true a2)) = false
  /\ adc_count (fst (Monitor_Task (fst (Monitor_Task m n1 true a1)) n2 true a2)) = 0
  /\ time_synced (Update_Temperature
                    (fst (Monitor_Task (fst (Monitor_Task m n1 true a1)) n2 true a2))
                    lsb msb t) = true
  /\ time_base_tick (Update_Temperature
                       (fst (Monitor_Task (fst (Monitor_Task m n1 true a1)) n2 true a2))
                       lsb msb t) = u32 (t + PRINT_INTERVAL_MS)
  /\ next_adc_tick (Update_Temperature
                      (fst (Monitor_Task (fst (Monitor_Task m n1 true a1)) n2 true a2))
                      lsb msb t) = t.
Proof.
  intros Hr Hin.
  destruct (press_while_running m n1 a1 Hr) as [nl1 E1]. rewrite E1. simpl.
  destruct (press_while_stopped
              (set_deadlines (set_run m false (time_synced m))
                             (next_adc_tick m) (next_print_tick m) nl1) n2 a2 eq_refl)
    as [nl2 E2].
  rewrite E2. simpl.
  unfold Update_Temperature. rewrite Hin. simpl.
  repeat split.
Qed.

Lemma restart_resyncs_on_next_frame_witness :
  time_base_tick (Update_Temperature
                    (fst (Monitor_Task
                            (fst (Monitor_Task (Update_Temperature (Monitor_Init 0) 234 0 0)
                                    600 true None)) 900 true None))
                    200 0 5000) = 5250.
Proof.
  destruct (restart_resyncs_on_next_frame (Update_Temperature (Monitor_Init 0) 234 0 0)
              600 900 5000 200 0 None None eq_refl eq_refl)
    as (_ & _ & _ & _ & _ & _ & _ & Htb & _).
  exact Htb.
Defined.

(** The median is one of the stored readings. *)
Theorem median_is_a_stored_reading (m : Monitor) :
  1 <= adc_count m <= MAX_ADC_SAMPLES -> length (adc_values m) = 10%nat ->
  Get_Median_ADC m ∈ take (Z.to_nat (adc_count m)) (adc_values m).
Proof.
  unfold MAX_ADC_SAMPLES. intros Hc Hlen.
  unfold Get_Median_ADC, bubble_sort.
  replace (adc_count m =? 0) with false by (symmetry; apply Z.eqb_neq; lia).
  cbv zeta.
  assert (Htake : length (take (Z.to_nat (adc_count m)) (adc_values m))
                  = S (Z.to_nat (adc_count m) - 1)).
  { rewrite length_take. lia. }
  destruct (bubble_rounds_sorted _ _ Htake) as [_ Hbp].
  apply list_elem_of_In. eapply Permutation_in; [exact Hbp|].
  apply nth_In. rewrite (Permutation_length Hbp), Htake.
  apply Nat.lt_le_trans with (Z.to_nat (adc_count m)); [apply Nat.div_lt; lia|lia].
Qed.

Lemma median_is_a_stored_reading_witness :
  Get_Median_ADC (set_window init_monitor [900; 20; 4000; 7; 0; 0; 0; 0; 0; 0] 4)
    ∈ [900; 20; 4000; 7].
Proof.
  apply (median_is_a_stored_reading
           (set_window init_monitor [900; 20; 4000; 7; 0; 0; 0; 0; 0; 0] 4));
    [unfold MAX_ADC_SAMPLES; simpl; lia | reflexivity].
Defined.

Lemma advance_deadline_no_wrap_witness :
  advance_deadline 1000 ADC_SAMPLE_MS 1020
    = (if 1000 + ADC_SAMPLE_MS <? 1020 then 1020 + ADC_SAMPLE_MS else 1000 + ADC_SAMPLE_MS)
  /\ 1000 + ADC_SAMPLE_MS <= advance_deadline 1000 ADC_SAMPLE_MS 1020
  /\ 1020 <= advance_deadline 1000 ADC_SAMPLE_MS 1020.
Proof.
  apply advance_deadline_no_wrap; unfold ADC_SAMPLE_MS, two32; lia.
Defined.
